(** * whapi: the bundler configuration [rollup.config.mjs]

    A shallow embedding of [src/whapi/rollup.config.mjs]: the build targets
    it exports, the export map it derives from the module list, and the
    [writeBundle] hook that rewrites [package.json]. *)

From Stdlib Require Import String List Bool Arith ZArith Lia Permutation FinFun.
Import ListNotations.
Open Scope string_scope.

Set Warnings "-register-all".

(** ** JSON values and JavaScript objects *)

(** What [import packageJson from './package.json'] can hold.  The script
    copies numbers, it never computes with them. *)
Inductive json : Type :=
| JNull
| JBool (b : bool)
| JNumber (n : Z)
| JString (s : string)
| JArray (items : list json)
| JObject (props : list (string * json)).

(** An object is the list of its own properties in property order.  Every
    key the script adds is a non-index string, so a new key goes last. *)
Definition JsObject : Type := list (string * json).

Module Obj.

Definition keys (o : JsObject) : list string := map fst o.

(** An object has each key once. *)
Definition wf (o : JsObject) : Prop := NoDup (keys o).

Fixpoint has (k : string) (o : JsObject) : bool :=
  match o with
  | [] => false
  | (k', _) :: rest => if String.eqb k k' then true else has k rest
  end.

Fixpoint wfb (o : JsObject) : bool :=
  match o with
  | [] => true
  | (k, _) :: rest => negb (has k rest) && wfb rest
  end.

(** [o[k]] *)
Fixpoint get (k : string) (o : JsObject) : option json :=
  match o with
  | [] => None
  | (k', v) :: rest => if String.eqb k k' then Some v else get k rest
  end.

(** [o[k] = v]: an existing key keeps its place, a new one is appended. *)
Fixpoint set (k : string) (v : json) (o : JsObject) : JsObject :=
  match o with
  | [] => [(k, v)]
  | (k', v') :: rest =>
      if String.eqb k k' then (k', v) :: rest else (k', v') :: set k v rest
  end.

(** [Object.assign(target, source)] *)
Definition assign (target source : JsObject) : JsObject :=
  fold_left (fun t kv => set (fst kv) (snd kv) t) source target.

(** [{ ...a }] *)
Definition spread (a : JsObject) : JsObject := assign [] a.

(** [{ ...a, ...b }] *)
Definition spread2 (a b : JsObject) : JsObject := assign (assign [] a) b.

(** The properties other than [k], in order. *)
Definition without (k : string) (o : JsObject) : JsObject :=
  filter (fun kv => negb (String.eqb k (fst kv))) o.

End Obj.

(** ** Constants of the script *)

Definition usePreferConst : bool := true.
Definition useStrict : bool := true.
Definition useThrowOnError : bool := true.
Definition useSourceMap : bool := false.
Definition useEsbuild : bool := true.
Definition external : list string := [].

(** [const modules = []], the list as the repository ships it.  The
    definitions below take the list as a parameter. *)
Definition modules_shipped : list string := [].

Definition defaultExports : JsObject :=
  [(".", JObject [("import", JString "./dist/esm/index.mjs");
                  ("require", JString "./dist/cjs/index.cjs");
                  ("types", JString "./dist/index.d.ts");
                  ("default", JString "./dist/esm/index.mjs")])].

(** ** The export map *)

Definition createExportTemplate (moduleName : string) : JsObject :=
  [("./" ++ moduleName,
    JObject [("import", JString ("./" ++ moduleName ++ "/index.mjs"));
             ("require", JString ("./" ++ moduleName ++ "/index.cjs"));
             ("types", JString ("./" ++ moduleName ++ "/index.d.ts"));
             ("default", JString ("./" ++ moduleName ++ "/index.mjs"))])].

(** One turn of [for (let moduleName of modules)]. *)
Definition exportsStep (updatedExports : JsObject) (moduleName : string) : JsObject :=
  Obj.assign updatedExports
    (Obj.spread2 updatedExports (createExportTemplate moduleName)).

(** The loop, from any value of [updatedExports]. *)
Definition exportsLoop (modules : list string) (updatedExports : JsObject) : JsObject :=
  fold_left exportsStep modules updatedExports.

(** [updatedExports] when the loop is over. *)
Definition updatedExports (modules : list string) : JsObject :=
  exportsLoop modules (Obj.spread defaultExports).

(** [packageJsonDuplicate] as it is handed to [JSON.stringify]. *)
Definition packageJsonDuplicate (modules : list string) (packageJson : JsObject) : JsObject :=
  Obj.set "exports" (JObject (updatedExports modules)) (Obj.spread packageJson).

(** The subpath and the entry [createExportTemplate] makes for a name. *)
Definition subpath (moduleName : string) : string := "./" ++ moduleName.

Definition moduleEntry (moduleName : string) : json :=
  JObject [("import", JString ("./" ++ moduleName ++ "/index.mjs"));
           ("require", JString ("./" ++ moduleName ++ "/index.cjs"));
           ("types", JString ("./" ++ moduleName ++ "/index.d.ts"));
           ("default", JString ("./" ++ moduleName ++ "/index.mjs"))].

Definition rootEntry : json :=
  JObject [("import", JString "./dist/esm/index.mjs");
           ("require", JString "./dist/cjs/index.cjs");
           ("types", JString "./dist/index.d.ts");
           ("default", JString "./dist/esm/index.mjs")].

(** ** Build targets *)

Module Rollup.

Inductive Format : Type := es | cjs.

(** The plugin calls that occur in the script. *)
Inductive Plugin : Type :=
| externals
| json (preferConst : bool)
| typescriptPaths (preserveExtensions : bool)
| dts
| esbuild
| typescript (noEmitOnError removeComments : bool)
| updatePackageJsonExports.

Record GeneratedCode : Type := { constBindings : bool }.

(** [output]: a key the script leaves out is [None]. *)
Record Output : Type := {
  file : string;
  format : Format;
  generatedCode : option GeneratedCode;
  strict : option bool;
  entryFileNames : option string;
  sourcemap : option bool
}.

(** One element of the exported array.  An element of [plugins] is
    [None] where the script writes [undefined]. *)
Record Options : Type := {
  input : string;
  output : Output;
  external : list string;
  plugins : list (option Plugin)
}.

Definition has_plugin (test : Plugin -> bool) (c : Options) : bool :=
  existsb (fun p => match p with Some q => test q | None => false end) (plugins c).

Definition is_dts (p : Plugin) : bool :=
  match p with dts => true | _ => false end.

Definition is_esbuild (p : Plugin) : bool :=
  match p with esbuild => true | _ => false end.

Definition is_updatePackageJsonExports (p : Plugin) : bool :=
  match p with updatePackageJsonExports => true | _ => false end.

(** The three kinds of target: a target that runs [dts()] extracts type
    declarations, the others emit code in their output format. *)
Inductive Kind : Type := Types | Esm | Cjs.

Definition kind (c : Options) : Kind :=
  if has_plugin is_dts c then Types
  else match format (output c) with es => Esm | cjs => Cjs end.

Definition kind_eqb (a b : Kind) : bool :=
  match a, b with
  | Types, Types | Esm, Esm | Cjs, Cjs => true
  | _, _ => false
  end.

Definition of_kind (k : Kind) (cs : list Options) : list Options :=
  filter (fun c => kind_eqb (kind c) k) cs.

End Rollup.

Definition createTsDefinitionConfigForModule (moduleName : string) : Rollup.Options :=
  {| Rollup.input := "src/modules/" ++ moduleName ++ "/index.ts";
     Rollup.output :=
       {| Rollup.file := moduleName ++ "/index.d.ts";
          Rollup.format := Rollup.es;
          Rollup.generatedCode := None;
          Rollup.strict := None;
          Rollup.entryFileNames := None;
          Rollup.sourcemap := None |};
     Rollup.external := external;
     Rollup.plugins :=
       [Some Rollup.externals;
        Some (Rollup.json usePreferConst);
        Some (Rollup.typescriptPaths true);
        Some Rollup.dts] |}.

Definition createCjsConfigForModules (moduleNames : list string) : list Rollup.Options :=
  map (fun moduleName =>
    {| Rollup.input := "src/modules/" ++ moduleName ++ "/index.ts";
       Rollup.output :=
         {| Rollup.file := moduleName ++ "/index.cjs";
            Rollup.format := Rollup.cjs;
            Rollup.generatedCode := Some {| Rollup.constBindings := usePreferConst |};
            Rollup.strict := Some useStrict;
            Rollup.entryFileNames := Some "[name].cjs";
            Rollup.sourcemap := Some useSourceMap |};
       Rollup.external := external;
       Rollup.plugins :=
         [Some Rollup.externals;
          Some (Rollup.json usePreferConst);
          (if useEsbuild then Some (Rollup.typescriptPaths true) else None);
          (if useEsbuild then Some Rollup.esbuild
           else Some (Rollup.typescript useThrowOnError true))] |})
    moduleNames.

Definition createEsmConfigForModules (moduleNames : list string) : list Rollup.Options :=
  map (fun moduleName =>
    {| Rollup.input := "src/modules/" ++ moduleName ++ "/index.ts";
       Rollup.output :=
         {| Rollup.file := moduleName ++ "/index.mjs";
            Rollup.format := Rollup.es;
            Rollup.generatedCode := Some {| Rollup.constBindings := usePreferConst |};
            Rollup.strict := Some useStrict;
            Rollup.entryFileNames := Some "[name].mjs";
            Rollup.sourcemap := Some useSourceMap |};
       Rollup.external := external;
       Rollup.plugins :=
         [Some Rollup.externals;
          Some (Rollup.json usePreferConst);
          (if useEsbuild then Some (Rollup.typescriptPaths true) else None);
          (if useEsbuild then Some Rollup.esbuild
           else Some (Rollup.typescript useThrowOnError true))] |})
    moduleNames.

(** The three literal elements that open the exported array. *)
Definition rootDtsTarget : Rollup.Options :=
  {| Rollup.input := "src/index.ts";
     Rollup.output :=
       {| Rollup.file := "dist/index.d.ts";
          Rollup.format := Rollup.es;
          Rollup.generatedCode := None;
          Rollup.strict := None;
          Rollup.entryFileNames := None;
          Rollup.sourcemap := None |};
     Rollup.external := external;
     Rollup.plugins :=
       [Some Rollup.externals;
        Some (Rollup.json usePreferConst);
        Some (Rollup.typescriptPaths true);
        Some Rollup.dts;
        Some Rollup.updatePackageJsonExports] |}.

Definition rootEsmTarget : Rollup.Options :=
  {| Rollup.input := "src/index.ts";
     Rollup.output :=
       {| Rollup.file := "dist/esm/index.mjs";
          Rollup.format := Rollup.es;
          Rollup.generatedCode := Some {| Rollup.constBindings := usePreferConst |};
          Rollup.strict := Some useStrict;
          Rollup.entryFileNames := Some "[name].mjs";
          Rollup.sourcemap := Some useSourceMap |};
     Rollup.external := external;
     Rollup.plugins :=
       [Some Rollup.externals;
        Some (Rollup.json usePreferConst);
        (if useEsbuild then Some (Rollup.typescriptPaths true) else None);
        (if useEsbuild then Some Rollup.esbuild
         else Some (Rollup.typescript useThrowOnError true))] |}.

Definition rootCjsTarget : Rollup.Options :=
  {| Rollup.input := "src/index.ts";
     Rollup.output :=
       {| Rollup.file := "dist/cjs/index.cjs";
          Rollup.format := Rollup.cjs;
          Rollup.generatedCode := Some {| Rollup.constBindings := usePreferConst |};
          Rollup.strict := Some useStrict;
          Rollup.entryFileNames := Some "[name].cjs";
          Rollup.sourcemap := Some useSourceMap |};
     Rollup.external := external;
     Rollup.plugins :=
       [Some Rollup.externals;
        Some (Rollup.json usePreferConst);
        (if useEsbuild then Some (Rollup.typescriptPaths true) else None);
        (if useEsbuild then Some Rollup.esbuild
         else Some (Rollup.typescript useThrowOnError true))] |}.

Definition rootTargets : list Rollup.Options :=
  [rootDtsTarget; rootEsmTarget; rootCjsTarget].

(** The three spreads that close the exported array. *)
Definition moduleTargets (modules : list string) : list Rollup.Options :=
  map createTsDefinitionConfigForModule modules
  ++ createCjsConfigForModules modules
  ++ createEsmConfigForModules modules.

(** [export default [ ... ]] *)
Definition default_export (modules : list string) : list Rollup.Options :=
  rootTargets ++ moduleTargets modules.

(** ** The [writeBundle] hook and the run of the bundler *)

(** The options object handed to [prettier.format]. *)
Record PrettierOptions : Type := {
  semi : bool;
  trailingComma : string;
  parser : string;
  singleQuote : bool;
  printWidth : Z;
  useTabs : bool;
  tabWidth : Z;
  arrowParens : string
}.

Definition formatPolicy : PrettierOptions :=
  {| semi := true;
     trailingComma := "none";
     parser := "json";
     singleQuote := true;
     printWidth := 180;
     useTabs := true;
     tabWidth := 4;
     arrowParens := "always" |}.

(** What a run leaves behind, oldest first. *)
Inductive Event : Type :=
| ConsoleLog (message : string)
| FileWritten (path content : string)
| BundleWritten (file : string).

(** What the script imports and what runs it: the file system, the two
    serialisers, and the bundler's own writing of one target's output.
    An operation on the disk gives the disk afterwards and the error it
    failed with, if it failed. *)
Class Host : Type := {
  Disk : Type;
  Error : Type;
  fs_writeFile : string -> string -> Disk -> Disk * option Error;
  JSON_stringify : JsObject -> string;
  prettier_format : string -> PrettierOptions -> string;
  bundle_write : Rollup.Options -> Disk -> Disk * option Error
}.

Section Run.
Context `{host : Host}.

Record World : Type := { disk : Disk; events : list Event }.

Inductive Outcome (A : Type) : Type :=
| Fulfilled (a : A)
| Rejected (e : Error).

(** An [async] body: it runs on the world and settles. *)
Definition Async (A : Type) : Type := World -> Outcome A * World.

Definition ret {A} (a : A) : Async A := fun w => (Fulfilled A a, w).

(** [await m; k]: a rejection of [m] is the rejection of the whole. *)
Definition bind {A B} (m : Async A) (k : A -> Async B) : Async B :=
  fun w =>
    match m w with
    | (Fulfilled _ a, w') => k a w'
    | (Rejected _ e, w') => (Rejected B e, w')
    end.

Definition log (ev : Event) (w : World) : World :=
  {| disk := disk w; events := events w ++ [ev] |}.

Definition console_log (message : string) : Async unit :=
  fun w => (Fulfilled unit tt, log (ConsoleLog message) w).

(** [fs.writeFile(path, content)] *)
Definition writeFile (path content : string) : Async unit :=
  fun w =>
    match fs_writeFile path content (disk w) with
    | (d, None) =>
        (Fulfilled unit tt,
         log (FileWritten path content) {| disk := d; events := events w |})
    | (d, Some e) => (Rejected unit e, {| disk := d; events := events w |})
    end.

(** The text that goes to [./package.json]. *)
Definition manifestText (modules : list string) (packageJson : JsObject) : string :=
  prettier_format (JSON_stringify (packageJsonDuplicate modules packageJson))
    formatPolicy.

(** [updatePackageJsonExports().writeBundle] *)
Definition writeBundle (modules : list string) (packageJson : JsObject) : Async unit :=
  bind (console_log "updating package.json for exports") (fun _ =>
  writeFile "./package.json" (manifestText modules packageJson)).

(** The [writeBundle] hook of a plugin call, for the plugin this script
    defines. *)
Definition writeBundle_of (modules : list string) (packageJson : JsObject)
    (p : Rollup.Plugin) : option (Async unit) :=
  match p with
  | Rollup.updatePackageJsonExports => Some (writeBundle modules packageJson)
  | _ => None
  end.

(** The bundler writes the output of one target. *)
Definition write_output (c : Rollup.Options) : Async unit :=
  fun w =>
    match bundle_write c (disk w) with
    | (d, None) =>
        (Fulfilled unit tt,
         log (BundleWritten (Rollup.file (Rollup.output c)))
           {| disk := d; events := events w |})
    | (d, Some e) => (Rejected unit e, {| disk := d; events := events w |})
    end.

(** Once the output is written the bundler calls the [writeBundle]
    hooks of the target's plugins, in plugin order. *)
Fixpoint run_hooks (modules : list string) (packageJson : JsObject)
    (ps : list (option Rollup.Plugin)) : Async unit :=
  match ps with
  | [] => ret tt
  | None :: rest => run_hooks modules packageJson rest
  | Some p :: rest =>
      match writeBundle_of modules packageJson p with
      | Some hook => bind hook (fun _ => run_hooks modules packageJson rest)
      | None => run_hooks modules packageJson rest
      end
  end.

Definition rollup_build (modules : list string) (packageJson : JsObject)
    (c : Rollup.Options) : Async unit :=
  bind (write_output c) (fun _ =>
  run_hooks modules packageJson (Rollup.plugins c)).

(** The command line of the bundler builds the elements of the exported
    array one after the other; the first rejection ends the run. *)
Fixpoint rollup_run (modules : list string) (packageJson : JsObject)
    (cs : list Rollup.Options) : Async unit :=
  match cs with
  | [] => ret tt
  | c :: rest =>
      bind (rollup_build modules packageJson c) (fun _ =>
      rollup_run modules packageJson rest)
  end.

(** One build invocation. *)
Definition build (modules : list string) (packageJson : JsObject) : Async unit :=
  rollup_run modules packageJson (default_export modules).

End Run.

Arguments Fulfilled {host A} a.
Arguments Rejected {host A} e.

(** ** Sample hosts and manifests *)

(** A disk as the list of its files, newest first. *)
Definition MemDisk : Type := list (string * string).

Inductive MemError : Type := EACCES | ENOSPC.

Definition mem_bundle_write (c : Rollup.Options) (d : MemDisk) : MemDisk * option MemError :=
  ((Rollup.file (Rollup.output c), Rollup.input c) :: d, None).

(** Every write goes through. *)
Definition memHost : Host :=
  {| Disk := MemDisk;
     Error := MemError;
     fs_writeFile := fun path content d => ((path, content) :: d, None);
     JSON_stringify := fun o => String.concat "," (Obj.keys o);
     prettier_format := fun text _ => text;
     bundle_write := mem_bundle_write |}.

(** [./package.json] cannot be written. *)
Definition readOnlyHost : Host :=
  {| Disk := MemDisk;
     Error := MemError;
     fs_writeFile := fun path content d => (d, Some EACCES);
     JSON_stringify := fun o => String.concat "," (Obj.keys o);
     prettier_format := fun text _ => text;
     bundle_write := mem_bundle_write |}.

Definition samplePackageJson : JsObject :=
  [("name", JString "whapi");
   ("version", JString "0.1.1");
   ("exports", JObject [("./legacy", JObject [("import", JString "./legacy/index.mjs")])]);
   ("private", JBool false)].

(** An empty disk and nothing logged yet. *)
Definition memWorld : @World memHost :=
  @Build_World memHost (@nil (string * string)) [].

Definition readOnlyWorld : @World readOnlyHost :=
  @Build_World readOnlyHost (@nil (string * string)) [].

(** ** Predicates of the statements *)

(** An entry of the export map: the four keys, in the order the script
    writes them, with [default] resolving where [import] does. *)
Definition isExportEntry (v : json) (target : string) : Prop :=
  exists r t : string,
    v = JObject [("import", JString target); ("require", JString r);
                 ("types", JString t); ("default", JString target)].

(** The [import] target that corresponds to the output file of a target. *)
Definition importPath (c : Rollup.Options) : string :=
  "./" ++ Rollup.file (Rollup.output c).

(** Every entry of the [exports] field of [input] is an entry of the
    [exports] field of [output]. *)
Definition exports_kept (input output : JsObject) : Prop :=
  forall ex k v,
    Obj.get "exports" input = Some (JObject ex) ->
    Obj.get k ex = Some v ->
    exists ex', Obj.get "exports" output = Some (JObject ex') /\
                Obj.get k ex' = Some v.

(** The manifest is written only when the output of every target is. *)
Definition manifest_written_last (targets : list Rollup.Options) (evs : list Event) : Prop :=
  forall before content after,
    evs = (before ++ FileWritten "./package.json" content :: after)%list ->
    forall c, In c targets ->
      In (BundleWritten (Rollup.file (Rollup.output c))) before.

(** The output files of targets, as the events of their writing. *)
Definition outputsWritten (cs : list Rollup.Options) : list Event :=
  map (fun c => BundleWritten (Rollup.file (Rollup.output c))) cs.

(** A host on which no write fails. *)
Definition never_fails (host : Host) : Prop :=
  (forall c d, snd (bundle_write c d) = None) /\
  (forall path content d, snd (fs_writeFile path content d) = None).

(** A target none of whose plugins is [updatePackageJsonExports()]. *)
Definition hookless (c : Rollup.Options) : Prop :=
  Rollup.has_plugin Rollup.is_updatePackageJsonExports c = false.

(** ** Further notions *)

(** The names of a list, each once, in the order in which they first
    occur. *)
Fixpoint firstOccurrences (names : list string) : list string :=
  match names with
  | [] => []
  | n :: rest =>
      n :: filter (fun m => negb (String.eqb m n)) (firstOccurrences rest)
  end.

(** [n] is none of [seen]. *)
Definition unseen (seen : list string) (n : string) : bool :=
  negb (existsb (String.eqb n) seen).

(** The property [createExportTemplate] makes for a name. *)
Definition exportOf (moduleName : string) : string * json :=
  (subpath moduleName, moduleEntry moduleName).

(** [v[k]] for a JSON value. *)
Definition field (k : string) (v : json) : option json :=
  match v with
  | JObject o => Obj.get k o
  | _ => None
  end.

(** The condition under which an entry of the export map offers the
    output of a target of a kind. *)
Definition conditionOf (k : Rollup.Kind) : string :=
  match k with
  | Rollup.Types => "types"
  | Rollup.Esm => "import"
  | Rollup.Cjs => "require"
  end.


(** The root target of a kind. *)
Definition rootOf (k : Rollup.Kind) : Rollup.Options :=
  match k with
  | Rollup.Types => rootDtsTarget
  | Rollup.Esm => rootEsmTarget
  | Rollup.Cjs => rootCjsTarget
  end.

(** A target with the settings of [r], but for its input, its output
    file and the plugin that rewrites the manifest. *)
Definition retarget (input file : string) (r : Rollup.Options) : Rollup.Options :=
  {| Rollup.input := input;
     Rollup.output :=
       {| Rollup.file := file;
          Rollup.format := Rollup.format (Rollup.output r);
          Rollup.generatedCode := Rollup.generatedCode (Rollup.output r);
          Rollup.strict := Rollup.strict (Rollup.output r);
          Rollup.entryFileNames := Rollup.entryFileNames (Rollup.output r);
          Rollup.sourcemap := Rollup.sourcemap (Rollup.output r) |};
     Rollup.external := Rollup.external r;
     Rollup.plugins :=
       filter (fun p => match p with
                        | Some q => negb (Rollup.is_updatePackageJsonExports q)
                        | None => true
                        end) (Rollup.plugins r) |}.

(** No target can be written: the disk is full. *)
Definition fullDiskHost : Host :=
  {| Disk := MemDisk;
     Error := MemError;
     fs_writeFile := fun path content d => ((path, content) :: d, None);
     JSON_stringify := fun o => String.concat "," (Obj.keys o);
     prettier_format := fun text _ => text;
     bundle_write := fun c d => (d, Some ENOSPC) |}.

(** The ES-module output of the root cannot be written. *)
Definition esmFailsHost : Host :=
  {| Disk := MemDisk;
     Error := MemError;
     fs_writeFile := fun path content d => ((path, content) :: d, None);
     JSON_stringify := fun o => String.concat "," (Obj.keys o);
     prettier_format := fun text _ => text;
     bundle_write := fun c d =>
       if String.eqb (Rollup.file (Rollup.output c)) "dist/esm/index.mjs"
       then (d, Some ENOSPC) else mem_bundle_write c d |}.

Definition fullDiskWorld : @World fullDiskHost :=
  @Build_World fullDiskHost (@nil (string * string)) [].

Definition esmFailsWorld : @World esmFailsHost :=
  @Build_World esmFailsHost (@nil (string * string)) [].

(** * Properties *)

Open Scope list_scope.

(** ** Objects *)

Module ObjFacts.
Import Obj.

Lemma has_In k o : has k o = true <-> In k (keys o).
Proof.
  induction o as [|[k' v'] o IH]; simpl.
  - split; [discriminate | tauto].
  - destruct (String.eqb_spec k k') as [->|Hne].
    + split; auto.
    + rewrite IH. split; [auto | intros [E|H]; [congruence | exact H]].
Qed.

Lemma wfb_wf o : wfb o = true <-> wf o.
Proof.
  unfold wf. induction o as [|[k v] o IH]; simpl.
  - split; [constructor | reflexivity].
  - rewrite andb_true_iff, negb_true_iff, IH. split.
    + intros [Hk Ho]. constructor; [|exact Ho].
      rewrite <- has_In. congruence.
    + intros Hnd. inversion Hnd as [|? ? Hk Ho]; subst. split; [|exact Ho].
      destruct (has k o) eqn:E; [|reflexivity].
      apply has_In in E. contradiction.
Qed.

Lemma get_In k v o : get k o = Some v -> In (k, v) o.
Proof.
  induction o as [|[k' v'] o IH]; simpl; [discriminate|].
  destruct (String.eqb_spec k k') as [->|Hne].
  - intros [= ->]. now left.
  - intros H. right. auto.
Qed.

Lemma In_get k v o : wf o -> In (k, v) o -> get k o = Some v.
Proof.
  unfold wf. induction o as [|[k' v'] o IH]; simpl; [tauto|].
  intros Hnd [E|Hin]; inversion Hnd as [|? ? Hk Ho]; subst.
  - injection E as -> ->. now rewrite String.eqb_refl.
  - destruct (String.eqb_spec k k') as [->|Hne]; [|auto].
    exfalso. apply Hk. change k' with (fst (k', v)). now apply in_map.
Qed.

Lemma get_None k o : ~ In k (keys o) -> get k o = None.
Proof.
  induction o as [|[k' v'] o IH]; simpl; [reflexivity|].
  intros H. destruct (String.eqb_spec k k') as [->|Hne]; [tauto|].
  apply IH. tauto.
Qed.

Lemma get_Some_key k v o : get k o = Some v -> In k (keys o).
Proof.
  intros H. apply get_In in H. change k with (fst (k, v)).
  now apply in_map.
Qed.

Lemma set_fresh k v o : ~ In k (keys o) -> set k v o = o ++ [(k, v)].
Proof.
  induction o as [|[k' v'] o IH]; simpl; [reflexivity|].
  intros H. destruct (String.eqb_spec k k') as [->|Hne]; [tauto|].
  f_equal. apply IH. tauto.
Qed.

Lemma keys_set_old k v o : In k (keys o) -> keys (set k v o) = keys o.
Proof.
  induction o as [|[k' v'] o IH]; simpl; [tauto|].
  destruct (String.eqb_spec k k') as [->|Hne]; [reflexivity|].
  intros [E|H]; [congruence|]. simpl. f_equal. auto.
Qed.

Lemma keys_set k v o :
  keys (set k v o) = if has k o then keys o else keys o ++ [k].
Proof.
  destruct (has k o) eqn:E.
  - apply keys_set_old, has_In, E.
  - rewrite set_fresh.
    + unfold keys. now rewrite map_app.
    + rewrite <- has_In. congruence.
Qed.

Lemma In_keys_set k' k v o :
  In k' (keys (set k v o)) <-> k' = k \/ In k' (keys o).
Proof.
  rewrite keys_set. destruct (has k o) eqn:E.
  - apply has_In in E. split; [auto | intros [->|H]; assumption].
  - rewrite in_app_iff. simpl. split; [intros [H|[H|[]]] | intros [H|H]]; auto.
Qed.

Lemma wf_set k v o : wf o -> wf (set k v o).
Proof.
  unfold wf. rewrite keys_set. destruct (has k o) eqn:E; [auto|].
  intros H. apply NoDup_app; [exact H | repeat constructor; simpl; tauto |].
  intros x Hx [<-|[]]. apply has_In in Hx. congruence.
Qed.

Lemma get_set_same k v o : get k (set k v o) = Some v.
Proof.
  induction o as [|[k' v'] o IH]; simpl.
  - now rewrite String.eqb_refl.
  - destruct (String.eqb_spec k k') as [->|Hne]; simpl.
    + now rewrite String.eqb_refl.
    + destruct (String.eqb_spec k k'); [contradiction | exact IH].
Qed.

Lemma get_set_other k' k v o : k' <> k -> get k' (set k v o) = get k' o.
Proof.
  intros Hne. induction o as [|[k0 v0] o IH]; simpl.
  - destruct (String.eqb_spec k' k); [contradiction | reflexivity].
  - destruct (String.eqb_spec k k0) as [->|Hk]; simpl.
    + destruct (String.eqb_spec k' k0); [contradiction | reflexivity].
    + destruct (String.eqb_spec k' k0); [reflexivity | exact IH].
Qed.

Lemma set_app_l k v pre o :
  ~ In k (keys pre) -> set k v (pre ++ o) = pre ++ set k v o.
Proof.
  induction pre as [|[k' v'] pre IH]; simpl; [reflexivity|].
  intros H. destruct (String.eqb_spec k k') as [->|Hne]; [tauto|].
  f_equal. apply IH. tauto.
Qed.

Lemma without_set k v o : without k (set k v o) = without k o.
Proof.
  unfold without. induction o as [|[k' v'] o IH]; simpl.
  - now rewrite String.eqb_refl.
  - destruct (String.eqb_spec k k') as [->|Hne]; simpl.
    + now rewrite String.eqb_refl.
    + destruct (String.eqb_spec k k'); [contradiction|]. simpl. now rewrite IH.
Qed.

Lemma assign_cons t k v s : assign t ((k, v) :: s) = assign (set k v t) s.
Proof. reflexivity. Qed.

Lemma assign_app t a b : assign t (a ++ b) = assign (assign t a) b.
Proof. unfold assign. apply fold_left_app. Qed.

Lemma wf_assign s : forall t, wf t -> wf (assign t s).
Proof.
  induction s as [|[k v] s IH]; intros t Ht; [exact Ht|].
  rewrite assign_cons. apply IH, wf_set, Ht.
Qed.

(** Keys that the target does not have are appended in order. *)
Lemma assign_fresh s : forall t,
  NoDup (keys t ++ keys s) -> assign t s = t ++ s.
Proof.
  induction s as [|[k v] s IH]; intros t H; simpl in H.
  - rewrite app_nil_r. reflexivity.
  - rewrite assign_cons, set_fresh.
    + rewrite IH; [now rewrite <- app_assoc|].
      unfold keys. rewrite map_app, <- app_assoc. exact H.
    + apply NoDup_remove_2 in H. rewrite in_app_iff in H. tauto.
Qed.

(** Assigning an object with the same keys in the same order replaces
    the values and nothing else. *)
Lemma assign_same_keys b : forall a pre,
  keys a = keys b -> NoDup (keys pre ++ keys b) ->
  assign (pre ++ a) b = pre ++ b.
Proof.
  induction b as [|[k vb] b IH]; intros a pre Hk Hnd.
  - destruct a; [reflexivity | discriminate].
  - destruct a as [|[k' va] a]; [discriminate|].
    simpl in Hk. injection Hk as -> Hk.
    rewrite assign_cons, set_app_l.
    + simpl. rewrite String.eqb_refl.
      change (pre ++ (k, vb) :: a) with (pre ++ [(k, vb)] ++ a).
      rewrite app_assoc, IH; [now rewrite <- app_assoc | exact Hk |].
      unfold keys. rewrite map_app, <- app_assoc. exact Hnd.
    + simpl in Hnd. apply NoDup_remove_2 in Hnd.
      rewrite in_app_iff in Hnd. tauto.
Qed.

Lemma spread_wf o : wf o -> spread o = o.
Proof. intros H. unfold spread. now rewrite assign_fresh. Qed.

Lemma wf_spread o : wf (spread o).
Proof. apply wf_assign. constructor. Qed.

Lemma assign_self o : wf o -> assign o o = o.
Proof. intros H. apply (assign_same_keys o o []); [reflexivity | exact H]. Qed.

(** [Object.assign(o, { ...o, [k]: v })] is [o[k] = v]. *)
Lemma assign_spread2_singleton k v o :
  wf o -> assign o (spread2 o [(k, v)]) = set k v o.
Proof.
  intros H. unfold spread2. fold (spread o). rewrite spread_wf by exact H.
  change (assign o [(k, v)]) with (set k v o).
  destruct (has k o) eqn:E.
  - apply (assign_same_keys (set k v o) o []); simpl.
    + symmetry. apply keys_set_old, has_In, E.
    + apply wf_set, H.
  - rewrite set_fresh by (rewrite <- has_In; congruence).
    rewrite assign_app, assign_self by exact H.
    simpl. apply set_fresh. rewrite <- has_In. congruence.
Qed.

End ObjFacts.

(** ** The export map *)

Section ExportMap.
Import Obj ObjFacts.

Lemma subpath_inj : Injective subpath.
Proof. intros a b H. unfold subpath in H. simpl in H. now injection H. Qed.

Lemma root_not_subpath n : "."%string <> subpath n.
Proof. unfold subpath. simpl. discriminate. Qed.

Lemma createExportTemplate_eq n :
  createExportTemplate n = [(subpath n, moduleEntry n)].
Proof. reflexivity. Qed.

Lemma spread_defaultExports : spread defaultExports = [(".", rootEntry)%string].
Proof. reflexivity. Qed.

Lemma exportsStep_set acc n :
  wf acc -> exportsStep acc n = set (subpath n) (moduleEntry n) acc.
Proof.
  intros H. unfold exportsStep. rewrite createExportTemplate_eq.
  now apply assign_spread2_singleton.
Qed.

Lemma exportsLoop_cons n M acc :
  exportsLoop (n :: M) acc = exportsLoop M (exportsStep acc n).
Proof. reflexivity. Qed.

Lemma wf_exportsLoop M : forall acc, wf acc -> wf (exportsLoop M acc).
Proof.
  induction M as [|n M IH]; intros acc H; [exact H|].
  rewrite exportsLoop_cons. apply IH.
  rewrite exportsStep_set by exact H. now apply wf_set.
Qed.

Lemma In_keys_exportsLoop M : forall acc k,
  wf acc ->
  In k (keys (exportsLoop M acc)) <-> In k (keys acc) \/ In k (map subpath M).
Proof.
  induction M as [|n M IH]; intros acc k H; simpl map.
  - simpl. tauto.
  - rewrite exportsLoop_cons, IH; rewrite exportsStep_set by exact H.
    + rewrite In_keys_set. simpl. intuition congruence.
    + now apply wf_set.
Qed.

Lemma get_exportsLoop_other M : forall acc k,
  wf acc -> ~ In k (map subpath M) ->
  get k (exportsLoop M acc) = get k acc.
Proof.
  induction M as [|m M IH]; intros acc k H Hk; [reflexivity|].
  simpl in Hk. rewrite exportsLoop_cons, exportsStep_set by exact H.
  rewrite IH; [| now apply wf_set | tauto].
  apply get_set_other. intros ->. tauto.
Qed.

(** The entry under a name of the list is the one made for that name,
    whatever was there before the loop. *)
Lemma get_exportsLoop_module M : forall acc n,
  wf acc -> In n M ->
  get (subpath n) (exportsLoop M acc) = Some (moduleEntry n).
Proof.
  induction M as [|m M IH]; intros acc n H Hin; [destruct Hin|].
  rewrite exportsLoop_cons, exportsStep_set by exact H.
  destruct (in_dec string_dec n M) as [HM|HM].
  - apply IH; [now apply wf_set | exact HM].
  - destruct Hin as [->|Hin]; [|contradiction].
    rewrite get_exportsLoop_other; [apply get_set_same | now apply wf_set |].
    rewrite in_map_iff. intros [x [E Hx]].
    apply subpath_inj in E. now subst.
Qed.

Lemma wf_updatedExports M : wf (updatedExports M).
Proof. apply wf_exportsLoop, wf_spread. Qed.

Lemma In_keys_updatedExports M k :
  In k (keys (updatedExports M)) <->
  k = "."%string \/ exists n, In n M /\ k = subpath n.
Proof.
  unfold updatedExports. rewrite In_keys_exportsLoop by apply wf_spread.
  rewrite spread_defaultExports, in_map_iff. simpl.
  split.
  - intros [[<-|[]]|[n [<- Hn]]]; [now left | right; now exists n].
  - intros [->|[n [Hn ->]]]; [now left; left | right; now exists n].
Qed.

Lemma get_updatedExports_root M : get "." (updatedExports M) = Some rootEntry.
Proof.
  unfold updatedExports. rewrite get_exportsLoop_other.
  - reflexivity.
  - apply wf_spread.
  - rewrite in_map_iff. intros [n [E _]]. now apply (root_not_subpath n).
Qed.

Lemma get_updatedExports_module M n :
  In n M -> get (subpath n) (updatedExports M) = Some (moduleEntry n).
Proof. intros H. apply get_exportsLoop_module; [apply wf_spread | exact H]. Qed.

(** What the finished map holds, key by key. *)
Lemma get_updatedExports M k v :
  get k (updatedExports M) = Some v <->
  (k = "."%string /\ v = rootEntry) \/
  (exists n, In n M /\ k = subpath n /\ v = moduleEntry n).
Proof.
  split.
  - intros H. pose proof (get_Some_key _ _ _ H) as Hk.
    apply In_keys_updatedExports in Hk. destruct Hk as [->|[n [Hn ->]]].
    + left. rewrite get_updatedExports_root in H. split; congruence.
    + right. exists n. rewrite get_updatedExports_module in H by exact Hn.
      repeat split; congruence.
  - intros [[-> ->]|[n [Hn [-> ->]]]].
    + apply get_updatedExports_root.
    + now apply get_updatedExports_module.
Qed.

(** The root entry stays first. *)
Lemma exportsLoop_head M : forall tail,
  wf ((".", rootEntry)%string :: tail) ->
  exists tail', exportsLoop M ((".", rootEntry)%string :: tail)
                = (".", rootEntry)%string :: tail'.
Proof.
  induction M as [|m M IH]; intros tail H; [now exists tail|].
  rewrite exportsLoop_cons, exportsStep_set by exact H.
  pose proof (wf_set (subpath m) (moduleEntry m) _ H) as H'.
  simpl in *. apply IH, H'.
Qed.

Lemma updatedExports_head M :
  exists tail, updatedExports M = (".", rootEntry)%string :: tail.
Proof.
  unfold updatedExports. rewrite spread_defaultExports.
  apply exportsLoop_head. repeat constructor. simpl. tauto.
Qed.

Lemma length_updatedExports M :
  length (updatedExports M) = 1 + length (nodup string_dec M).
Proof.
  transitivity (length (keys (updatedExports M))).
  { unfold keys. now rewrite length_map. }
  transitivity (length ("."%string :: map subpath (nodup string_dec M))).
  2:{ simpl. now rewrite length_map. }
  apply Permutation_length, NoDup_Permutation.
  - apply wf_updatedExports.
  - constructor.
    + rewrite in_map_iff. intros [n [E _]]. now apply (root_not_subpath n).
    + apply Injective_map_NoDup; [exact subpath_inj | apply NoDup_nodup].
  - intros k. rewrite In_keys_updatedExports. simpl. rewrite in_map_iff.
    split.
    + intros [->|[n [Hn ->]]]; [now left | right].
      exists n. split; [reflexivity | now apply nodup_In].
    + intros [<-|[n [<- Hn]]]; [now left | right].
      exists n. split; [now apply nodup_In in Hn | reflexivity].
Qed.

Lemma wf_packageJsonDuplicate M p : wf (packageJsonDuplicate M p).
Proof. apply wf_set, wf_spread. Qed.

Lemma get_exports_packageJsonDuplicate M p :
  get "exports" (packageJsonDuplicate M p) = Some (JObject (updatedExports M)).
Proof. apply get_set_same. Qed.

End ExportMap.

(** The map for the list the repository ships, for two modules, and for
    a name given twice. *)
Example updatedExports_shipped :
  updatedExports modules_shipped = [(".", rootEntry)%string].
Proof. reflexivity. Qed.

Example updatedExports_two :
  updatedExports ["billing"; "reports"]%string =
  [(".", rootEntry); ("./billing", moduleEntry "billing");
   ("./reports", moduleEntry "reports")]%string.
Proof. reflexivity. Qed.

Example updatedExports_twice :
  updatedExports ["a"; "b"; "a"]%string =
  [(".", rootEntry); ("./a", moduleEntry "a"); ("./b", moduleEntry "b")]%string.
Proof. reflexivity. Qed.

(** A manifest that has no [exports] yet gets the field last; one that
    has it keeps the field where it is. *)
Example packageJsonDuplicate_sample :
  packageJsonDuplicate modules_shipped samplePackageJson =
  [("name", JString "whapi"); ("version", JString "0.1.1");
   ("exports", JObject [(".", rootEntry)]); ("private", JBool false)]%string.
Proof. reflexivity. Qed.

Example packageJsonDuplicate_fresh :
  packageJsonDuplicate ["billing"]%string [("name", JString "whapi")]%string =
  [("name", JString "whapi");
   ("exports", JObject [(".", rootEntry); ("./billing", moduleEntry "billing")])]%string.
Proof. reflexivity. Qed.

Lemma set_set_same k v v' o : Obj.set k v (Obj.set k v' o) = Obj.set k v o.
Proof.
  induction o as [|[k0 v0] o IH]; simpl.
  - now rewrite String.eqb_refl.
  - destruct (String.eqb_spec k k0) as [->|Hne]; simpl.
    + now rewrite String.eqb_refl.
    + destruct (String.eqb_spec k k0); [contradiction | now rewrite IH].
Qed.

(** C1.  Whatever the manifest read, the [exports] field handed to the
    serialiser is the map built from the module list; it has one entry
    for the root and one for each distinct name of the list, so its size
    is 1 + |dedup(M)| (for the empty list too, and whatever the manifest
    held); its keys are pairwise distinct; the root entry is always there;
    and a name of the list ends up with the entry made for it whatever the
    map held under that subpath before the loop (the later write wins). *)
Theorem C1_export_map_size (M : list string) (packageJson : JsObject) :
  Obj.get "exports" (packageJsonDuplicate M packageJson)
    = Some (JObject (updatedExports M)) /\
  length (updatedExports M) = 1 + length (nodup string_dec M) /\
  NoDup (Obj.keys (updatedExports M)) /\
  (forall k, In k (Obj.keys (updatedExports M)) <->
             k = "."%string \/ exists n, In n M /\ k = ("./" ++ n)%string) /\
  Obj.get "." (updatedExports M) = Some rootEntry /\
  (forall acc n, Obj.wf acc -> In n M ->
     Obj.get ("./" ++ n) (exportsLoop M acc) = Some (moduleEntry n)).
Proof.
  split; [apply get_exports_packageJsonDuplicate|].
  split; [apply length_updatedExports|].
  split; [apply wf_updatedExports|].
  split; [apply In_keys_updatedExports|].
  split; [apply get_updatedExports_root|].
  intros acc n Hacc Hn. now apply get_exportsLoop_module.
Qed.

(** The loop overwrites a colliding entry: the list names "a" twice and
    the map already had something else under "./a". *)
Lemma C1_export_map_size_witness :
  Obj.wf [("./a", JNull)%string] /\ In "a"%string ["a"; "a"]%string /\
  Obj.get "./a" (exportsLoop ["a"; "a"]%string [("./a", JNull)%string])
    = Some (moduleEntry "a").
Proof.
  split; [repeat constructor; simpl; tauto|].
  split; [now left|].
  apply (C1_export_map_size ["a"; "a"]%string samplePackageJson).
  - repeat constructor; simpl; tauto.
  - now left.
Defined.

(** C2.  Run on its own result with the same module list, the update gives
    that result again: the same object, hence the same export map and the
    same text for [./package.json]. *)
Theorem C2_update_idempotent `{host : Host} (M : list string) (packageJson : JsObject) :
  packageJsonDuplicate M (packageJsonDuplicate M packageJson)
    = packageJsonDuplicate M packageJson /\
  Obj.get "exports" (packageJsonDuplicate M (packageJsonDuplicate M packageJson))
    = Obj.get "exports" (packageJsonDuplicate M packageJson) /\
  manifestText M (packageJsonDuplicate M packageJson) = manifestText M packageJson.
Proof.
  assert (E : packageJsonDuplicate M (packageJsonDuplicate M packageJson)
              = packageJsonDuplicate M packageJson).
  { unfold packageJsonDuplicate at 1.
    rewrite ObjFacts.spread_wf by apply wf_packageJsonDuplicate.
    unfold packageJsonDuplicate. apply set_set_same. }
  split; [exact E|]. split; [now rewrite E|].
  unfold manifestText. now rewrite E.
Qed.

(** C3, in the form that holds.  The update does not merge into the [exports] field
    it read: it sets the field to a map built afresh, which opens with the
    default root entry and holds, besides it, exactly the entry made for
    each name of the module list.  An entry of the input survives only if
    it is one of these. *)
Theorem C3_exports_rebuilt (M : list string) (packageJson : JsObject) :
  Obj.get "exports" (packageJsonDuplicate M packageJson)
    = Some (JObject (updatedExports M)) /\
  (exists tail, updatedExports M = (".", rootEntry)%string :: tail) /\
  (forall k v,
     Obj.get k (updatedExports M) = Some v <->
     (k = "."%string /\ v = rootEntry) \/
     (exists n, In n M /\ k = ("./" ++ n)%string /\ v = moduleEntry n)).
Proof.
  split; [apply get_exports_packageJsonDuplicate|].
  split; [apply updatedExports_head|].
  intros k v. apply get_updatedExports.
Qed.

(** C3 as first stated fails: with the module list the repository
    ships, an entry "./legacy" of the manifest's [exports] is gone from the
    manifest that is written. *)
Lemma C3_exports_not_kept :
  ~ exports_kept samplePackageJson
      (packageJsonDuplicate modules_shipped samplePackageJson).
Proof.
  intros H.
  destruct (H [("./legacy", JObject [("import", JString "./legacy/index.mjs")])]%string
              "./legacy"%string
              (JObject [("import", JString "./legacy/index.mjs")]%string)
              eq_refl eq_refl) as [ex' [E1 E2]].
  vm_compute in E1. injection E1 as <-. vm_compute in E2. discriminate.
Qed.

(** C8.  The object handed to the serialiser has the properties of the
    manifest that was read, in the same order and with the same values,
    except for [exports]; so it has for the module list the repository
    ships, the empty one. *)
Theorem C8_only_exports_changes (M : list string) (packageJson : JsObject) :
  Obj.wf packageJson ->
  Obj.without "exports" (packageJsonDuplicate M packageJson)
    = Obj.without "exports" packageJson /\
  (forall k, k <> "exports"%string ->
     Obj.get k (packageJsonDuplicate M packageJson) = Obj.get k packageJson) /\
  Obj.without "exports" (packageJsonDuplicate modules_shipped packageJson)
    = Obj.without "exports" packageJson.
Proof.
  intros H. unfold packageJsonDuplicate.
  rewrite ObjFacts.spread_wf by exact H.
  split; [apply ObjFacts.without_set|].
  split; [|apply ObjFacts.without_set].
  intros k Hk. now apply ObjFacts.get_set_other.
Qed.

Lemma C8_only_exports_changes_witness :
  Obj.wf samplePackageJson /\
  Obj.without "exports" (packageJsonDuplicate ["billing"]%string samplePackageJson)
    = Obj.without "exports" samplePackageJson.
Proof.
  assert (H : Obj.wf samplePackageJson).
  { apply ObjFacts.wfb_wf. reflexivity. }
  split; [exact H|].
  apply (C8_only_exports_changes ["billing"]%string samplePackageJson H).
Defined.

(** C9.  The [exports] field that is written depends on the module list
    alone: two manifests, however they differ, get the same one, the map
    built from the list; a key of it is "." or the subpath of a name of the
    list, so nothing else the input held under [exports] is in it. *)
Theorem C9_exports_from_modules_alone (M : list string) (p1 p2 : JsObject) :
  Obj.get "exports" (packageJsonDuplicate M p1)
    = Obj.get "exports" (packageJsonDuplicate M p2) /\
  Obj.get "exports" (packageJsonDuplicate M p1) = Some (JObject (updatedExports M)) /\
  (forall k, Obj.get k (updatedExports M) = None \/ k = "."%string \/
             exists n, In n M /\ k = ("./" ++ n)%string).
Proof.
  rewrite !get_exports_packageJsonDuplicate.
  split; [reflexivity|]. split; [reflexivity|].
  intros k. destruct (Obj.get k (updatedExports M)) as [v|] eqn:E; [right | now left].
  apply ObjFacts.get_Some_key in E. now apply In_keys_updatedExports.
Qed.

(** C10.  Every entry of the map that is built, the root one and the one
    of each module, has the four keys [import], [require], [types] and
    [default] and no other, and [default] resolves where [import] does: at
    the output file of the ES-module target of the root, or of that module.
    The entry of a module is the one [createExportTemplate] returns for
    its name. *)
Theorem C10_entry_shape (M : list string) (k : string) (v : json) :
  In (k, v) (updatedExports M) ->
  exists target,
    isExportEntry v target /\
    ((k = "."%string /\
      map importPath (Rollup.of_kind Rollup.Esm rootTargets) = [target]) \/
     (exists n, In n M /\ k = ("./" ++ n)%string /\
                createExportTemplate n = [(k, v)] /\
                map importPath (createEsmConfigForModules [n]) = [target])).
Proof.
  intros H. apply ObjFacts.In_get in H; [|apply wf_updatedExports].
  apply get_updatedExports in H.
  destruct H as [[-> ->]|[n [Hn [-> ->]]]].
  - exists "./dist/esm/index.mjs"%string. split.
    + now exists "./dist/cjs/index.cjs"%string, "./dist/index.d.ts"%string.
    + left. split; reflexivity.
  - exists ("./" ++ n ++ "/index.mjs")%string. split.
    + now exists ("./" ++ n ++ "/index.cjs")%string, ("./" ++ n ++ "/index.d.ts")%string.
    + right. exists n. repeat split; auto.
Qed.

Lemma C10_entry_shape_witness :
  In ("./billing"%string, moduleEntry "billing")
     (updatedExports ["billing"; "reports"]%string) /\
  exists target, isExportEntry (moduleEntry "billing") target.
Proof.
  assert (H : In ("./billing"%string, moduleEntry "billing")
                 (updatedExports ["billing"; "reports"]%string)).
  { right. left. reflexivity. }
  split; [exact H|].
  destruct (C10_entry_shape ["billing"; "reports"]%string _ _ H) as [t [Ht _]].
  now exists t.
Defined.

(** ** The build targets *)

Section Targets.
Import Rollup.

(** A target made for a name has a kind that does not depend on the
    name, so a filter by kind keeps or drops a whole group. *)
Ltac by_group M :=
  induction M as [|? ? IH]; [reflexivity|];
  unfold of_kind in *; simpl in *; rewrite IH; reflexivity.

Lemma of_kind_dts k M :
  of_kind k (map createTsDefinitionConfigForModule M)
  = if kind_eqb Types k then map createTsDefinitionConfigForModule M else [].
Proof. destruct k; by_group M. Qed.

Lemma of_kind_cjs k M :
  of_kind k (createCjsConfigForModules M)
  = if kind_eqb Cjs k then createCjsConfigForModules M else [].
Proof. destruct k; by_group M. Qed.

Lemma of_kind_esm k M :
  of_kind k (createEsmConfigForModules M)
  = if kind_eqb Esm k then createEsmConfigForModules M else [].
Proof. destruct k; by_group M. Qed.

Lemma of_kind_app k a b : of_kind k (a ++ b) = of_kind k a ++ of_kind k b.
Proof. apply filter_app. Qed.

Lemma of_kind_moduleTargets M :
  of_kind Types (moduleTargets M) = map createTsDefinitionConfigForModule M /\
  of_kind Cjs (moduleTargets M) = createCjsConfigForModules M /\
  of_kind Esm (moduleTargets M) = createEsmConfigForModules M.
Proof.
  unfold moduleTargets.
  rewrite !of_kind_app, !of_kind_dts, !of_kind_cjs, !of_kind_esm. simpl.
  now rewrite !app_nil_r.
Qed.

(** No module target reads the source entry of the root. *)
Lemma not_root_moduleTargets M :
  filter (fun c => String.eqb (input c) "src/index.ts") (moduleTargets M) = [].
Proof.
  unfold moduleTargets, createCjsConfigForModules, createEsmConfigForModules.
  rewrite !filter_app.
  assert (H : forall f : string -> Options,
            (forall n, input (f n) = ("src/modules/" ++ n ++ "/index.ts")%string) ->
            filter (fun c => String.eqb (input c) "src/index.ts") (map f M) = []).
  { intros f Hf. induction M as [|n N IH]; [reflexivity|].
    simpl. rewrite Hf, IH. reflexivity. }
  rewrite !H by reflexivity. reflexivity.
Qed.

Lemma length_moduleTargets M : length (moduleTargets M) = 3 * length M.
Proof.
  unfold moduleTargets, createCjsConfigForModules, createEsmConfigForModules.
  rewrite !length_app, !length_map. lia.
Qed.

End Targets.

(** C6.  The targets of the modules: for each kind (type declarations,
    CommonJS, ES module) the targets of that kind are the ones made for
    the names of the list, one for one and in the order of the list, a
    name that occurs twice giving two targets; so there are three targets
    for each element of the list, none for the empty list, and six for
    ["billing"; "reports"], two of each kind.  With [useEsbuild] on, every
    code target runs the esbuild plugin. *)
Theorem C6_module_targets (M : list string) :
  Rollup.of_kind Rollup.Types (moduleTargets M)
    = map createTsDefinitionConfigForModule M /\
  Rollup.of_kind Rollup.Cjs (moduleTargets M) = createCjsConfigForModules M /\
  Rollup.of_kind Rollup.Esm (moduleTargets M) = createEsmConfigForModules M /\
  (forall k, map Rollup.input (Rollup.of_kind k (moduleTargets M))
             = map (fun n => "src/modules/" ++ n ++ "/index.ts")%string M) /\
  length (moduleTargets M) = 3 * length M /\
  moduleTargets [] = [] /\
  useEsbuild = true /\
  forallb (Rollup.has_plugin Rollup.is_esbuild)
    (createCjsConfigForModules M ++ createEsmConfigForModules M) = true /\
  map Rollup.kind (moduleTargets ["billing"; "reports"]%string)
    = [Rollup.Types; Rollup.Types; Rollup.Cjs; Rollup.Cjs; Rollup.Esm; Rollup.Esm] /\
  map Rollup.input (Rollup.of_kind Rollup.Esm (moduleTargets ["a"; "b"; "a"]%string))
    = ["src/modules/a/index.ts"; "src/modules/b/index.ts";
       "src/modules/a/index.ts"]%string.
Proof.
  destruct (of_kind_moduleTargets M) as [Ht [Hc He]].
  split; [exact Ht|]. split; [exact Hc|]. split; [exact He|].
  split.
  { intros [| |]; rewrite ?Ht, ?Hc, ?He;
      unfold createCjsConfigForModules, createEsmConfigForModules;
      rewrite map_map; reflexivity. }
  split; [apply length_moduleTargets|].
  split; [reflexivity|]. split; [reflexivity|].
  split; [|split; reflexivity].
  rewrite forallb_app, andb_true_iff, !forallb_forall.
  unfold createCjsConfigForModules, createEsmConfigForModules. split; intros c Hc'; apply in_map_iff in Hc';
    destruct Hc' as [n [<- _]]; reflexivity.
Qed.

(** C7.  Whatever the module list, the exported array opens with the same
    three targets for [src/index.ts]: one that runs [dts()] and no
    transpiler, in format [es], with no code options; one in format [es]
    and one in format [cjs], both strict, with constant bindings and
    without source maps. *)
Theorem C7_root_targets (M : list string) :
  firstn 3 (default_export M) = rootTargets /\
  skipn 3 (default_export M) = moduleTargets M /\
  filter (fun c => String.eqb (Rollup.input c) "src/index.ts") (default_export M)
    = rootTargets /\
  length rootTargets = 3 /\
  map Rollup.input rootTargets = ["src/index.ts"; "src/index.ts"; "src/index.ts"]%string /\
  map Rollup.kind rootTargets = [Rollup.Types; Rollup.Esm; Rollup.Cjs] /\
  map (fun c => Rollup.format (Rollup.output c)) rootTargets
    = [Rollup.es; Rollup.es; Rollup.cjs] /\
  map (fun c => Rollup.file (Rollup.output c)) rootTargets
    = ["dist/index.d.ts"; "dist/esm/index.mjs"; "dist/cjs/index.cjs"]%string /\
  map (fun c => (Rollup.has_plugin Rollup.is_dts c, Rollup.has_plugin Rollup.is_esbuild c))
      rootTargets
    = [(true, false); (false, true); (false, true)] /\
  map (fun c => (Rollup.strict (Rollup.output c),
                 Rollup.generatedCode (Rollup.output c),
                 Rollup.sourcemap (Rollup.output c))) rootTargets
    = [(None, None, None);
       (Some true, Some {| Rollup.constBindings := true |}, Some false);
       (Some true, Some {| Rollup.constBindings := true |}, Some false)].
Proof.
  split; [reflexivity|]. split; [reflexivity|].
  split; [|repeat split; reflexivity].
  unfold default_export. rewrite filter_app, not_root_moduleTargets.
  reflexivity.
Qed.

(** ** The run *)

Section RunFacts.
Context `{host : Host}.
Variables (M : list string) (packageJson : JsObject).

Lemma run_hooks_hookless ps :
  existsb (fun p => match p with
                    | Some q => Rollup.is_updatePackageJsonExports q
                    | None => false
                    end) ps = false ->
  run_hooks M packageJson ps = ret tt.
Proof.
  induction ps as [|[q|] ps IH]; simpl; [reflexivity | |exact IH].
  rewrite orb_false_iff. intros [Hq Hps].
  destruct q; simpl in *; try discriminate; now apply IH.
Qed.

Lemma rollup_build_hookless c w :
  hookless c -> rollup_build M packageJson c w = write_output c w.
Proof.
  intros H. unfold rollup_build, bind.
  rewrite run_hooks_hookless by exact H.
  destruct (write_output c w) as [[[]|e] w']; reflexivity.
Qed.

(** A run over targets without the hook writes their outputs, in order,
    and nothing else. *)
Lemma rollup_run_hookless cs : forall w w',
  Forall hookless cs ->
  rollup_run M packageJson cs w = (Fulfilled tt, w') ->
  events w' = events w ++ outputsWritten cs.
Proof.
  induction cs as [|c cs IH]; intros w w' Hcs Hrun; simpl in Hrun.
  - injection Hrun as <-. simpl. now rewrite app_nil_r.
  - inversion Hcs as [|? ? Hc Hcs']; subst.
    unfold bind in Hrun. rewrite rollup_build_hookless in Hrun by exact Hc.
    unfold write_output in Hrun.
    destruct (bundle_write c (disk w)) as [d [e|]]; [discriminate|].
    apply IH in Hrun; [|exact Hcs'].
    rewrite Hrun. simpl. now rewrite <- app_assoc.
Qed.

Lemma rollup_run_hookless_ok cs : forall w,
  never_fails host -> Forall hookless cs ->
  exists w', rollup_run M packageJson cs w = (Fulfilled tt, w').
Proof.
  induction cs as [|c cs IH]; intros w Hok Hcs; simpl.
  - now exists w.
  - inversion Hcs as [|? ? Hc Hcs']; subst.
    unfold bind. rewrite rollup_build_hookless by exact Hc.
    unfold write_output. destruct Hok as [Hb Hf].
    pose proof (Hb c (disk w)) as E.
    destruct (bundle_write c (disk w)) as [d o]. simpl in E. subst o.
    apply IH; [now split | exact Hcs'].
Qed.

Lemma hookless_moduleTargets N : Forall hookless (moduleTargets N).
Proof.
  unfold moduleTargets, createCjsConfigForModules, createEsmConfigForModules.
  rewrite !Forall_app, !Forall_map. repeat split;
    apply Forall_forall; intros n _; reflexivity.
Qed.

Lemma hookless_after_first N :
  Forall hookless (rootEsmTarget :: rootCjsTarget :: moduleTargets N).
Proof.
  repeat (constructor; [reflexivity|]). apply hookless_moduleTargets.
Qed.

Lemma filter_hookless cs :
  Forall hookless cs ->
  filter (Rollup.has_plugin Rollup.is_updatePackageJsonExports) cs = [].
Proof.
  induction 1 as [|c cs Hc _ IH]; simpl; [reflexivity|].
  unfold hookless in Hc. now rewrite Hc.
Qed.

(** The first target: its output, then the hook. *)
Lemma rollup_build_rootDts w :
  rollup_build M packageJson rootDtsTarget w =
  match bundle_write rootDtsTarget (disk w) with
  | (d, Some e) => (Rejected e, {| disk := d; events := events w |})
  | (d, None) =>
      writeBundle M packageJson
        {| disk := d; events := events w ++ [BundleWritten "dist/index.d.ts"] |}
  end.
Proof.
  unfold rollup_build, bind, write_output.
  destruct (bundle_write rootDtsTarget (disk w)) as [d [e|]]; [reflexivity|].
  simpl. unfold bind, log. simpl.
  destruct (writeBundle M packageJson _) as [[[]|e] w']; reflexivity.
Qed.

Lemma writeBundle_eq w :
  writeBundle M packageJson w =
  match fs_writeFile "./package.json" (manifestText M packageJson) (disk w) with
  | (d, Some e) =>
      (Rejected e,
       {| disk := d;
          events := events w ++ [ConsoleLog "updating package.json for exports"] |})
  | (d, None) =>
      (Fulfilled tt,
       {| disk := d;
          events := (events w ++ [ConsoleLog "updating package.json for exports"])
                    ++ [FileWritten "./package.json" (manifestText M packageJson)] |})
  end.
Proof.
  unfold writeBundle, bind, console_log, writeFile, log. simpl.
  destruct (fs_writeFile _ _ _) as [d [e|]]; reflexivity.
Qed.

End RunFacts.

(** C4, in the form that holds.  One target of the exported array carries the hook
    that writes the manifest, the first one (the type declarations of the
    root).  So a build invocation that goes through writes the manifest
    exactly once, right after the output of that first target and before
    the output of every other target: the ES-module and CommonJS outputs
    of the root and all outputs of the modules come later.  On a host
    where no write fails the invocation does go through. *)
Theorem C4_manifest_written_after_first_target `{host : Host}
    (M : list string) (packageJson : JsObject) (w : World) :
  filter (Rollup.has_plugin Rollup.is_updatePackageJsonExports) (default_export M)
    = [rootDtsTarget] /\
  (forall w', build M packageJson w = (Fulfilled tt, w') ->
     events w' =
       events w
       ++ [BundleWritten "dist/index.d.ts";
           ConsoleLog "updating package.json for exports";
           FileWritten "./package.json" (manifestText M packageJson)]
       ++ outputsWritten (rootEsmTarget :: rootCjsTarget :: moduleTargets M)) /\
  (never_fails host -> exists w', build M packageJson w = (Fulfilled tt, w')).
Proof.
  split.
  { unfold default_export, rootTargets. simpl.
    now rewrite filter_hookless by apply hookless_moduleTargets. }
  assert (Hbuild : build M packageJson w =
            bind (rollup_build M packageJson rootDtsTarget) (fun _ =>
              rollup_run M packageJson
                (rootEsmTarget :: rootCjsTarget :: moduleTargets M)) w)
    by reflexivity.
  rewrite Hbuild. clear Hbuild.
  split; [intros w' | intros Hok]; unfold bind at 1;
    rewrite rollup_build_rootDts.
  - destruct (bundle_write rootDtsTarget (disk w)) as [d1 [e|]]; [discriminate|].
    rewrite writeBundle_eq. cbn [disk events].
    destruct (fs_writeFile _ _ d1) as [d2 [e|]]; [discriminate|].
    intros Hrun.
    apply rollup_run_hookless in Hrun; [|apply hookless_after_first].
    rewrite Hrun. cbn [events]. now rewrite <- !app_assoc.
  - pose proof Hok as [Hb Hf].
    pose proof (Hb rootDtsTarget (disk w)) as E1.
    destruct (bundle_write rootDtsTarget (disk w)) as [d1 o1].
    simpl in E1. subst o1.
    rewrite writeBundle_eq. cbn [disk events].
    pose proof (Hf "./package.json"%string (manifestText M packageJson) d1) as E2.
    destruct (fs_writeFile _ _ d1) as [d2 o2]. simpl in E2. subst o2.
    apply rollup_run_hookless_ok; [exact Hok | apply hookless_after_first].
Qed.

Lemma C4_manifest_written_after_first_target_witness :
  never_fails memHost /\
  exists w',
    build (host := memHost) ["billing"]%string samplePackageJson memWorld
      = (Fulfilled tt, w') /\
    events w' =
      [BundleWritten "dist/index.d.ts";
       ConsoleLog "updating package.json for exports";
       FileWritten "./package.json" "name,version,exports,private";
       BundleWritten "dist/esm/index.mjs";
       BundleWritten "dist/cjs/index.cjs";
       BundleWritten "billing/index.d.ts";
       BundleWritten "billing/index.cjs";
       BundleWritten "billing/index.mjs"]%string.
Proof.
  assert (Hok : never_fails memHost) by (split; reflexivity).
  split; [exact Hok|].
  destruct (C4_manifest_written_after_first_target (host := memHost)
              ["billing"]%string samplePackageJson memWorld)
    as [_ [Hev Hgo]].
  destruct (Hgo Hok) as [w' Hw']. exists w'. split; [exact Hw'|].
  rewrite (Hev w' Hw'). reflexivity.
Defined.

(** C4 as first stated fails: with the module list the repository
    ships, the manifest is written while the ES-module output of the root
    is not written yet. *)
Lemma C4_manifest_not_written_last :
  ~ manifest_written_last (default_export modules_shipped)
      (events (snd (build (host := memHost) modules_shipped samplePackageJson
                      memWorld))).
Proof.
  intros H.
  specialize (H [BundleWritten "dist/index.d.ts";
                 ConsoleLog "updating package.json for exports"]%string
                "name,version,exports,private"%string
                [BundleWritten "dist/esm/index.mjs";
                 BundleWritten "dist/cjs/index.cjs"]%string
                eq_refl rootEsmTarget).
  simpl in H. destruct H as [H|[H|[]]]; [now right; left | discriminate..].
Qed.

(** C5.  When [fs.writeFile] fails on [./package.json], [writeBundle]
    rejects with that very error, after the one attempt: the disk is the
    one this attempt left and nothing is logged beyond the console line.
    The build invocation then rejects with the same error, and no further
    target is built. *)
Theorem C5_write_failure_propagates `{host : Host}
    (M : list string) (packageJson : JsObject) (w : World) (e : Error) :
  (forall d,
     fs_writeFile "./package.json" (manifestText M packageJson) (disk w)
       = (d, Some e) ->
     writeBundle M packageJson w =
       (Rejected e,
        {| disk := d;
           events := events w ++ [ConsoleLog "updating package.json for exports"] |})) /\
  (forall d1 d2,
     bundle_write rootDtsTarget (disk w) = (d1, None) ->
     fs_writeFile "./package.json" (manifestText M packageJson) d1
       = (d2, Some e) ->
     build M packageJson w =
       (Rejected e,
        {| disk := d2;
           events := events w ++ [BundleWritten "dist/index.d.ts";
                                  ConsoleLog "updating package.json for exports"] |})).
Proof.
  split.
  - intros d Hfail. now rewrite writeBundle_eq, Hfail.
  - intros d1 d2 Hout Hfail.
    assert (Hbuild : build M packageJson w =
              bind (rollup_build M packageJson rootDtsTarget) (fun _ =>
                rollup_run M packageJson
                  (rootEsmTarget :: rootCjsTarget :: moduleTargets M)) w)
      by reflexivity.
    rewrite Hbuild. unfold bind at 1.
    rewrite rollup_build_rootDts, Hout, writeBundle_eq. cbn [disk events].
    rewrite Hfail. now rewrite <- app_assoc.
Qed.

Lemma C5_write_failure_propagates_witness :
  build (host := readOnlyHost) ["billing"]%string samplePackageJson readOnlyWorld
  = (@Rejected readOnlyHost unit EACCES,
     @Build_World readOnlyHost [("dist/index.d.ts", "src/index.ts")]%string
       [BundleWritten "dist/index.d.ts";
        ConsoleLog "updating package.json for exports"]).
Proof.
  destruct (C5_write_failure_propagates (host := readOnlyHost)
              ["billing"]%string samplePackageJson readOnlyWorld EACCES)
    as [_ H].
  apply (H [("dist/index.d.ts", "src/index.ts")]%string
           [("dist/index.d.ts", "src/index.ts")]%string); reflexivity.
Defined.

(** * Further properties *)

(** ** The export map, in order *)

Section ExportOrder.
Import Obj ObjFacts.

Lemma set_same k v o : get k o = Some v -> set k v o = o.
Proof.
  induction o as [|[k' v'] o IH]; simpl; [discriminate|].
  destruct (String.eqb_spec k k') as [->|Hne].
  - now intros [= ->].
  - intros H. now rewrite IH.
Qed.

Lemma unseen_false seen n : unseen seen n = false <-> In n seen.
Proof.
  unfold unseen. rewrite negb_false_iff, existsb_exists. split.
  - intros [m [Hm E]]. apply String.eqb_eq in E. now subst.
  - intros H. exists n. split; [exact H | apply String.eqb_refl].
Qed.

Lemma unseen_true seen n : unseen seen n = true <-> ~ In n seen.
Proof.
  rewrite <- unseen_false. destruct (unseen seen n); split; congruence.
Qed.

Lemma filter_filter_absorb {A} (p q : A -> bool) l :
  (forall x, p x = true -> q x = true) ->
  filter p (filter q l) = filter p l.
Proof.
  intros H. induction l as [|x l IH]; simpl; [reflexivity|].
  destruct (q x) eqn:Eq; simpl.
  - now rewrite IH.
  - destruct (p x) eqn:Ep; [|exact IH].
    apply H in Ep. congruence.
Qed.

Lemma filter_filter_and {A} (p q : A -> bool) l :
  filter p (filter q l) = filter (fun x => q x && p x) l.
Proof.
  induction l as [|x l IH]; simpl; [reflexivity|].
  destruct (q x); simpl; [destruct (p x)|]; now rewrite IH.
Qed.

Lemma In_firstOccurrences M n : In n (firstOccurrences M) <-> In n M.
Proof.
  induction M as [|m M IH]; simpl; [tauto|].
  rewrite filter_In, IH, negb_true_iff, String.eqb_neq.
  destruct (string_dec m n) as [->|Hne]; [tauto|].
  split; [tauto|]. intros [E|H]; [contradiction|]. right. split; congruence.
Qed.

Lemma NoDup_firstOccurrences M : NoDup (firstOccurrences M).
Proof.
  induction M as [|m M IH]; simpl; constructor.
  - rewrite filter_In, String.eqb_refl. simpl. intros [_ H]. discriminate.
  - now apply NoDup_filter.
Qed.

Lemma firstOccurrences_NoDup M : NoDup M -> firstOccurrences M = M.
Proof.
  induction 1 as [|m M Hm _ IH]; simpl; [reflexivity|].
  rewrite IH. f_equal. apply forallb_filter_id.
  apply forallb_forall. intros x Hx.
  rewrite negb_true_iff, String.eqb_neq. congruence.
Qed.

Lemma keys_exportOf S : keys (map exportOf S) = map subpath S.
Proof. unfold keys. rewrite map_map. reflexivity. Qed.

Lemma get_exportOf S n :
  In n S -> get (subpath n) (map exportOf S) = Some (moduleEntry n).
Proof.
  induction S as [|m S IH]; intros Hin; [destruct Hin|].
  change (get (subpath n) (map exportOf (m :: S)))
    with (if String.eqb (subpath n) (subpath m) then Some (moduleEntry m)
          else get (subpath n) (map exportOf S)).
  destruct (String.eqb_spec (subpath n) (subpath m)) as [E|Hne].
  - apply subpath_inj in E. now subst.
  - destruct Hin as [->|H]; [congruence | auto].
Qed.

(** From a map that holds the root entry and the entries of the names
    [S], the loop appends the entries of the names it has not seen, in the
    order in which it meets them. *)
Lemma exportsLoop_ordered M : forall S,
  NoDup S ->
  exportsLoop M ((".", rootEntry)%string :: map exportOf S) =
  (".", rootEntry)%string
    :: map exportOf (S ++ filter (unseen S) (firstOccurrences M)).
Proof.
  induction M as [|n M IH]; intros S HS.
  - simpl. now rewrite app_nil_r.
  - assert (Hwf : wf ((".", rootEntry)%string :: map exportOf S)).
    { unfold wf. simpl. rewrite keys_exportOf. constructor.
      - rewrite in_map_iff. intros [m [E _]]. now apply (root_not_subpath m).
      - now apply Injective_map_NoDup; [exact subpath_inj|]. }
    rewrite exportsLoop_cons, exportsStep_set by exact Hwf.
    cbn [firstOccurrences filter].
    destruct (unseen S n) eqn:E.
    + apply unseen_true in E.
      rewrite set_fresh.
      2:{ simpl. rewrite keys_exportOf, in_map_iff.
          intros [H|[m [Hm Hin]]].
          - now apply (root_not_subpath n).
          - apply subpath_inj in Hm. now subst. }
      replace (((".", rootEntry)%string :: map exportOf S)
               ++ [(subpath n, moduleEntry n)])
        with ((".", rootEntry)%string :: map exportOf (S ++ [n]))
        by (rewrite map_app; reflexivity).
      rewrite IH.
      2:{ apply NoDup_app; [exact HS | repeat constructor; simpl; tauto |].
          intros x Hx [<-|[]]. contradiction. }
      rewrite <- app_assoc. simpl. do 4 f_equal.
      rewrite filter_filter_and. apply filter_ext. intros x.
      unfold unseen. rewrite existsb_app. simpl.
      rewrite orb_false_r, negb_orb. apply andb_comm.
    + apply unseen_false in E.
      rewrite set_same.
      2:{ simpl. destruct (String.eqb_spec (subpath n) ".") as [H|_].
          - symmetry in H. now apply root_not_subpath in H.
          - now apply get_exportOf. }
      rewrite IH by exact HS. do 3 f_equal.
      symmetry. apply filter_filter_absorb. intros x Hx.
      rewrite negb_true_iff, String.eqb_neq. intros ->.
      apply unseen_true in Hx. contradiction.
Qed.

Lemma filter_unseen_nil l : filter (unseen []) l = l.
Proof. apply forallb_filter_id, forallb_forall. reflexivity. Qed.

Lemma updatedExports_ordered M :
  updatedExports M = (".", rootEntry)%string :: map exportOf (firstOccurrences M).
Proof.
  unfold updatedExports. rewrite spread_defaultExports.
  pose proof (exportsLoop_ordered M [] (NoDup_nil _)) as H.
  cbn [map app] in H. rewrite H, filter_unseen_nil. reflexivity.
Qed.

(** A loop over names whose entries the map already holds changes nothing. *)
Lemma exportsLoop_fixed N : forall acc,
  wf acc ->
  (forall n, In n N -> get (subpath n) acc = Some (moduleEntry n)) ->
  exportsLoop N acc = acc.
Proof.
  induction N as [|n N IH]; intros acc Hwf H; [reflexivity|].
  rewrite exportsLoop_cons, exportsStep_set by exact Hwf.
  rewrite set_same by (apply H; now left).
  apply IH; [exact Hwf|]. intros m Hm. apply H. now right.
Qed.

End ExportOrder.

Lemma unseen_ext S S' n :
  (forall m, In m S <-> In m S') -> unseen S n = unseen S' n.
Proof.
  intros H. destruct (unseen S' n) eqn:E.
  - apply unseen_true. rewrite H. now apply unseen_true.
  - apply unseen_false. rewrite H. now apply unseen_false.
Qed.

Lemma updatedExports_app M N :
  updatedExports (M ++ N) = exportsLoop N (updatedExports M).
Proof. unfold updatedExports, exportsLoop. apply fold_left_app. Qed.

(** X1.  The export map lists the root entry first and then the entry of
    each module, once, in the order in which the names first occur in the
    module list; for a list without repetition, in the order of the list. *)
Theorem X1_export_map_in_order (M : list string) :
  updatedExports M = (".", rootEntry)%string :: map exportOf (firstOccurrences M) /\
  NoDup (firstOccurrences M) /\
  (forall n, In n (firstOccurrences M) <-> In n M) /\
  (NoDup M -> updatedExports M = (".", rootEntry)%string :: map exportOf M).
Proof.
  split; [apply updatedExports_ordered|].
  split; [apply NoDup_firstOccurrences|].
  split; [intros n; apply In_firstOccurrences|].
  intros H. rewrite updatedExports_ordered. now rewrite firstOccurrences_NoDup.
Qed.

Lemma X1_export_map_in_order_witness :
  NoDup ["reports"; "billing"]%string /\
  updatedExports ["reports"; "billing"]%string =
  [(".", rootEntry); ("./reports", moduleEntry "reports");
   ("./billing", moduleEntry "billing")]%string.
Proof.
  assert (H : NoDup ["reports"; "billing"]%string).
  { repeat constructor; simpl; intuition discriminate. }
  split; [exact H|].
  apply (X1_export_map_in_order ["reports"; "billing"]%string), H.
Defined.

(** X2.  Names that the module list already has add nothing: running the
    loop over them again leaves the export map as it is, so a list with
    such names appended gives the same map. *)
Theorem X2_known_names_add_nothing (M N : list string) :
  (forall n, In n N -> In n M) ->
  exportsLoop N (updatedExports M) = updatedExports M /\
  updatedExports (M ++ N) = updatedExports M.
Proof.
  intros H.
  assert (E : exportsLoop N (updatedExports M) = updatedExports M).
  { apply exportsLoop_fixed; [apply wf_updatedExports|].
    intros n Hn. apply get_updatedExports_module, H, Hn. }
  split; [exact E|]. now rewrite updatedExports_app.
Qed.

Lemma X2_known_names_add_nothing_witness :
  updatedExports (["a"; "b"]%string ++ ["b"; "a"; "b"]%string)
  = updatedExports ["a"; "b"]%string.
Proof.
  apply (X2_known_names_add_nothing ["a"; "b"]%string ["b"; "a"; "b"]%string).
  simpl. tauto.
Defined.

(** X3.  Adding modules at the end of the list leaves the entries that
    were there where they were and as they were: the new map is the old
    one followed by the entries of the names that are new. *)
Theorem X3_more_modules_extend_the_map (M N : list string) :
  updatedExports (M ++ N) =
  updatedExports M ++ map exportOf (filter (unseen M) (firstOccurrences N)).
Proof.
  rewrite updatedExports_app, (updatedExports_ordered M).
  rewrite exportsLoop_ordered by apply NoDup_firstOccurrences.
  rewrite map_app. simpl. do 3 f_equal.
  apply filter_ext. intros n. apply unseen_ext, In_firstOccurrences.
Qed.



(** ** The export map and the targets *)

Lemma In_moduleTargets M c :
  In c (moduleTargets M) <->
  exists n, In n M /\
    (c = createTsDefinitionConfigForModule n \/
     In c (createCjsConfigForModules [n]) \/
     In c (createEsmConfigForModules [n])).
Proof.
  unfold moduleTargets, createCjsConfigForModules, createEsmConfigForModules.
  rewrite !in_app_iff, !in_map_iff. simpl. split.
  - intros [[n [<- H]]|[[n [<- H]]|[n [<- H]]]]; exists n; split; auto.
  - intros [n [Hn [->|[[<-|[]]|[<-|[]]]]]];
      [left | right; left | right; right]; exists n; auto.
Qed.

(** X5.  Every path an entry of the export map names is the output file
    of a target of the exported array: [import] and [default] that of an
    ES-module target, [require] that of a CommonJS target, [types] that of
    a type-declaration target, the three targets reading the same source
    entry. *)
Theorem X5_exports_name_outputs (M : list string) (k : string) (v : json) :
  In (k, v) (updatedExports M) ->
  exists ce cc ct,
    In ce (default_export M) /\ Rollup.kind ce = Rollup.Esm /\
    In cc (default_export M) /\ Rollup.kind cc = Rollup.Cjs /\
    In ct (default_export M) /\ Rollup.kind ct = Rollup.Types /\
    Rollup.input ce = Rollup.input ct /\ Rollup.input cc = Rollup.input ct /\
    v = JObject [("import", JString (importPath ce));
                 ("require", JString (importPath cc));
                 ("types", JString (importPath ct));
                 ("default", JString (importPath ce))]%string.
Proof.
  intros H. apply ObjFacts.In_get in H; [|apply wf_updatedExports].
  apply get_updatedExports in H.
  destruct H as [[-> ->]|[n [Hn [-> ->]]]].
  - exists rootEsmTarget, rootCjsTarget, rootDtsTarget.
    unfold default_export, rootTargets. simpl. intuition.
  - exists (hd rootEsmTarget (createEsmConfigForModules [n])),
           (hd rootCjsTarget (createCjsConfigForModules [n])),
           (createTsDefinitionConfigForModule n).
    unfold default_export.
    repeat split; try reflexivity; apply in_or_app; right;
      apply In_moduleTargets; exists n; (split; [exact Hn|]); simpl; auto.
Qed.

Lemma X5_exports_name_outputs_witness :
  exists ce cc ct,
    In ce (default_export ["billing"]%string) /\
    In cc (default_export ["billing"]%string) /\
    In ct (default_export ["billing"]%string) /\
    moduleEntry "billing" =
    JObject [("import", JString (importPath ce));
             ("require", JString (importPath cc));
             ("types", JString (importPath ct));
             ("default", JString (importPath ce))]%string.
Proof.
  destruct (X5_exports_name_outputs ["billing"]%string
              "./billing"%string (moduleEntry "billing"))
    as [ce [cc [ct H]]].
  - right. left. reflexivity.
  - exists ce, cc, ct. tauto.
Defined.

(** X6.  Every output file of the exported array is named by the export
    map: the entry of the root or of the module offers it under the
    condition of its kind ([types], [import] or [require]). *)
Theorem X6_outputs_are_exported (M : list string) (c : Rollup.Options) :
  In c (default_export M) ->
  exists k v,
    In (k, v) (updatedExports M) /\
    field (conditionOf (Rollup.kind c)) v = Some (JString (importPath c)).
Proof.
  unfold default_export. rewrite in_app_iff. intros [H|H].
  - exists "."%string, rootEntry. split.
    + apply ObjFacts.get_In, get_updatedExports_root.
    + simpl in H. destruct H as [<-|[<-|[<-|[]]]]; reflexivity.
  - apply In_moduleTargets in H. destruct H as [n [Hn H]].
    exists (subpath n), (moduleEntry n). split.
    + now apply ObjFacts.get_In, get_updatedExports_module.
    + simpl in H. destruct H as [->|[[<-|[]]|[<-|[]]]]; reflexivity.
Qed.

Lemma X6_outputs_are_exported_witness :
  exists k v,
    In (k, v) (updatedExports ["billing"]%string) /\
    field "require" v = Some (JString "./billing/index.cjs").
Proof.
  apply (X6_outputs_are_exported ["billing"]%string
           (hd rootCjsTarget (createCjsConfigForModules ["billing"]%string))).
  simpl. tauto.
Defined.

(** ** The output files *)

Section OutputFiles.














End OutputFiles.


(** X8.  A target of a module has the settings of the root target of its
    kind: format, code options, externals and plugins are the same; it
    differs by its input, by its output file, and in that it does not
    carry the plugin that rewrites the manifest. *)
Theorem X8_module_targets_follow_root (M : list string) (c : Rollup.Options) :
  In c (moduleTargets M) ->
  c = retarget (Rollup.input c) (Rollup.file (Rollup.output c))
        (rootOf (Rollup.kind c)).
Proof.
  intros H. apply In_moduleTargets in H. destruct H as [n [_ H]].
  simpl in H. destruct H as [->|[[<-|[]]|[<-|[]]]]; reflexivity.
Qed.

Lemma X8_module_targets_follow_root_witness :
  createTsDefinitionConfigForModule "billing" =
  retarget "src/modules/billing/index.ts" "billing/index.d.ts" rootDtsTarget.
Proof.
  apply (X8_module_targets_follow_root ["billing"]%string
           (createTsDefinitionConfigForModule "billing")).
  now left.
Defined.

(** ** Runs that fail *)

Section FailingRuns.
Context `{host : Host}.
Variables (M : list string) (packageJson : JsObject).

(** A run over targets without the hook, however it ends, has written the
    outputs of the first [k] targets, in order: all of them when it is
    fulfilled, not all when it is rejected. *)
Lemma rollup_run_hookless_prefix cs : forall w o w',
  Forall hookless cs ->
  rollup_run M packageJson cs w = (o, w') ->
  exists k,
    events w' = events w ++ outputsWritten (firstn k cs) /\
    match o with
    | Fulfilled _ => k = length cs
    | Rejected _ => k < length cs
    end.
Proof.
  induction cs as [|c cs IH]; intros w o w' Hcs Hrun; simpl in Hrun.
  - injection Hrun as <- <-. exists 0. simpl. now rewrite app_nil_r.
  - inversion Hcs as [|? ? Hc Hcs']; subst.
    unfold bind in Hrun. rewrite rollup_build_hookless in Hrun by exact Hc.
    unfold write_output in Hrun.
    destruct (bundle_write c (disk w)) as [d [e|]].
    + injection Hrun as <- <-. exists 0. simpl.
      split; [now rewrite app_nil_r | lia].
    + apply IH in Hrun; [|exact Hcs'].
      destruct Hrun as [k [Hev Hk]]. exists (S k). split.
      * rewrite Hev. simpl. now rewrite <- app_assoc.
      * destruct o; simpl; lia.
Qed.

Lemma build_eq w :
  build M packageJson w =
  bind (rollup_build M packageJson rootDtsTarget) (fun _ =>
    rollup_run M packageJson
      (rootEsmTarget :: rootCjsTarget :: moduleTargets M)) w.
Proof. reflexivity. Qed.

End FailingRuns.

(** X9.  When the output of the first target cannot be written, the build
    invocation is rejected with that error and [./package.json] is left
    alone: the disk is as the failed write left it, nothing is logged, and
    no other target is built. *)
Theorem X9_first_target_fails `{host : Host}
    (M : list string) (packageJson : JsObject) (w : World)
    (d : Disk) (e : Error) :
  bundle_write rootDtsTarget (disk w) = (d, Some e) ->
  build M packageJson w = (Rejected e, {| disk := d; events := events w |}).
Proof.
  intros H. rewrite build_eq. unfold bind.
  now rewrite rollup_build_rootDts, H.
Qed.

Lemma X9_first_target_fails_witness :
  build (host := fullDiskHost) ["billing"]%string samplePackageJson fullDiskWorld
  = (@Rejected fullDiskHost unit ENOSPC, fullDiskWorld).
Proof.
  apply (X9_first_target_fails (host := fullDiskHost)
           ["billing"]%string samplePackageJson fullDiskWorld).
  reflexivity.
Defined.

(** X10.  Once the first output and the manifest are written, a failure
    of a later target does not undo the manifest: however the invocation
    ends, its events are the first output, the console line, the write of
    [./package.json], and the outputs of the first [k] of the remaining
    targets, in order; all of them if it is fulfilled, fewer if it is
    rejected. *)
Theorem X10_manifest_stays_written `{host : Host}
    (M : list string) (packageJson : JsObject) (w w' : World)
    (d1 d2 : Disk) (o : Outcome unit) :
  bundle_write rootDtsTarget (disk w) = (d1, None) ->
  fs_writeFile "./package.json" (manifestText M packageJson) d1 = (d2, None) ->
  build M packageJson w = (o, w') ->
  exists k,
    events w' =
      events w
      ++ [BundleWritten "dist/index.d.ts";
          ConsoleLog "updating package.json for exports";
          FileWritten "./package.json" (manifestText M packageJson)]
      ++ outputsWritten
           (firstn k (rootEsmTarget :: rootCjsTarget :: moduleTargets M)) /\
    match o with
    | Fulfilled _ => k = 2 + 3 * length M
    | Rejected _ => k < 2 + 3 * length M
    end.
Proof.
  intros Hout Hfile Hrun. rewrite build_eq in Hrun. unfold bind at 1 in Hrun.
  rewrite rollup_build_rootDts, Hout, writeBundle_eq in Hrun.
  cbn [disk events] in Hrun. rewrite Hfile in Hrun.
  apply rollup_run_hookless_prefix in Hrun; [|apply hookless_after_first].
  destruct Hrun as [k [Hev Hk]]. exists k. split.
  - rewrite Hev. cbn [events]. now rewrite <- !app_assoc.
  - simpl length in Hk. rewrite length_moduleTargets in Hk.
    destruct o; lia.
Qed.

Lemma X10_manifest_stays_written_witness :
  fst (build (host := esmFailsHost) ["billing"]%string samplePackageJson
         esmFailsWorld)
    = @Rejected esmFailsHost unit ENOSPC /\
  exists k,
    [BundleWritten "dist/index.d.ts";
     ConsoleLog "updating package.json for exports";
     FileWritten "./package.json" "name,version,exports,private"]%string =
      [] ++ [BundleWritten "dist/index.d.ts";
             ConsoleLog "updating package.json for exports";
             FileWritten "./package.json" "name,version,exports,private"]%string
      ++ outputsWritten
           (firstn k (rootEsmTarget :: rootCjsTarget
                      :: moduleTargets ["billing"]%string)) /\
    k < 2 + 3 * 1.
Proof.
  split; [reflexivity|].
  exact (X10_manifest_stays_written (host := esmFailsHost)
           ["billing"]%string samplePackageJson esmFailsWorld
           (snd (build (host := esmFailsHost) ["billing"]%string
                   samplePackageJson esmFailsWorld))
           [("dist/index.d.ts", "src/index.ts")]%string
           [("./package.json", "name,version,exports,private");
            ("dist/index.d.ts", "src/index.ts")]%string
           (fst (build (host := esmFailsHost) ["billing"]%string
                   samplePackageJson esmFailsWorld))
           eq_refl eq_refl eq_refl).
Defined.
